(** * summit-api: the authenticated REST client of [api-helper.js]

    A shallow embedding of the client module: the JavaScript values that
    travel through it, the three pieces of the language the module relies on
    (truthiness, string conversion in template literals, which can throw,
    and [JSON.stringify]),
    the asynchronous functions [getToken] and [apiCall], and the twenty-six
    exported endpoint wrappers.

    Promises are modelled by their settlement: a call either returns a
    promise that resolves with a value or rejects with an exception, or it
    throws before returning any promise.  The identity provider and the
    network are the environment; every call of [fetch] is recorded, in order,
    so that statements about the requests a call issues can be made. *)

From Stdlib Require Import ZArith List String Ascii Bool Lia DecimalString.
From Stdlib Require DecimalPos.
Import ListNotations.

Local Open Scope string_scope.
Local Open Scope Z_scope.

(** ** JavaScript values *)

Module Js.

(** The values the module handles: JSON data, [undefined] (an omitted
    argument or a missing property) and [NaN].  [JNum z] stands for the
    number of integer value [z]; below 2^53 in absolute value these are
    exactly the integers a double holds, and [Number::toString] prints them
    in plain decimal notation.  Fractions and larger numbers are not covered.
    An object is a plain one (its prototype is [Object.prototype]) and lists
    its own properties in enumeration order, each key once. *)
#[warnings="-register-all"]
Inductive jsvalue : Type :=
| JUndefined
| JNull
| JBool (b : bool)
| JNum (z : Z)
| JNaN
| JStr (s : string)
| JArr (elements : list jsvalue)
| JObj (properties : list (string * jsvalue)).

(** ToBoolean: [undefined], [null], [false], [0], [NaN] and the empty string
    are falsy; everything else, every object and array included, is truthy. *)
Definition truthy (v : jsvalue) : bool :=
  match v with
  | JUndefined | JNull | JNaN => false
  | JBool b => b
  | JNum z => negb (z =? 0)
  | JStr s => negb (s =? "")%string
  | JArr _ | JObj _ => true
  end.

(** [a || b] *)
Definition or_else (a b : jsvalue) : jsvalue :=
  if truthy a then a else b.

(** A parameter declared [x = d] takes [d] when the argument is omitted or
    is [undefined]. *)
Definition default_param (arg d : jsvalue) : jsvalue :=
  match arg with
  | JUndefined => d
  | _ => arg
  end.

Definition Z_to_string (z : Z) : string :=
  NilEmpty.string_of_int (Z.to_int z).

Fixpoint join (sep : string) (parts : list string) : string :=
  match parts with
  | [] => ""
  | [p] => p
  | p :: rest => p ++ sep ++ join sep rest
  end.

(** The own property [key] of a value; only objects carry properties here. *)
Fixpoint assoc (key : string) (ps : list (string * jsvalue)) : option jsvalue :=
  match ps with
  | [] => None
  | (k, x) :: rest => if (k =? key)%string then Some x else assoc key rest
  end.

Definition own_property (v : jsvalue) (key : string) : option jsvalue :=
  match v with
  | JObj ps => assoc key ps
  | _ => None
  end.

(** All the strings of a list of results, or nothing when one is missing. *)
Fixpoint all_some (parts : list (option string)) : option (list string) :=
  match parts with
  | [] => Some []
  | Some p :: rest => option_map (cons p) (all_some rest)
  | None :: _ => None
  end.

(** ToString, as applied to the substitutions of a template literal and to
    the argument of [new Error]; [None] when the conversion throws a
    [TypeError].  A plain object prints through [Object.prototype.toString]
    unless it has an own property [toString]: a value held by a JSON object
    is never callable, and [Object.prototype.valueOf] returns no primitive,
    so the conversion then throws.  An array is joined with commas, [null]
    and [undefined] elements printing as nothing, and throws when the
    conversion of an element does. *)
Fixpoint ToString (v : jsvalue) : option string :=
  match v with
  | JUndefined => Some "undefined"
  | JNull => Some "null"
  | JBool true => Some "true"
  | JBool false => Some "false"
  | JNum z => Some (Z_to_string z)
  | JNaN => Some "NaN"
  | JStr s => Some s
  | JArr l =>
      option_map (join ",")
                 (all_some (map (fun x => match x with
                                          | JUndefined | JNull => Some ""
                                          | _ => ToString x
                                          end) l))
  | JObj ps =>
      match assoc "toString" ps with
      | Some _ => None
      | None => Some "[object Object]"
      end
  end.

(** Whether the string conversion of [v] succeeds. *)
Definition converts (v : jsvalue) : bool :=
  match ToString v with
  | Some _ => true
  | None => false
  end.

(** *** JSON.stringify *)

Definition hex_digit (n : N) : ascii :=
  ascii_of_N (if (n <? 10)%N then 48 + n else 87 + n)%N.

(** One code unit of QuoteJSONString. *)
Definition escape_char (c : ascii) : string :=
  let n := N_of_ascii c in
  if (n =? 34)%N then "\" ++ String c ""
  else if (n =? 92)%N then "\\"
  else if (n =? 8)%N then "\b"
  else if (n =? 9)%N then "\t"
  else if (n =? 10)%N then "\n"
  else if (n =? 12)%N then "\f"
  else if (n =? 13)%N then "\r"
  else if (n <? 32)%N then
    "\u00" ++ String (hex_digit (n / 16)) (String (hex_digit (n mod 16)) "")
  else String c "".

Fixpoint escape (s : string) : string :=
  match s with
  | EmptyString => ""
  | String c rest => escape_char c ++ escape rest
  end.

Definition dquote : string := String (ascii_of_N 34) "".

(** JSON text is written below with single quotes standing for the double
    quotes of the real text. *)
Fixpoint json_text (s : string) : string :=
  match s with
  | EmptyString => ""
  | String c rest =>
      String (if (N_of_ascii c =? 39)%N then ascii_of_N 34 else c) (json_text rest)
  end.

Definition QuoteJSONString (s : string) : string :=
  dquote ++ escape s ++ dquote.

(** [JSON.stringify v]: [None] stands for the result [undefined].  A property
    whose value does not serialize is left out of its object; such an element
    of an array is written [null]. *)
Fixpoint JSON_stringify (v : jsvalue) : option string :=
  match v with
  | JUndefined => None
  | JNull | JNaN => Some "null"
  | JBool true => Some "true"
  | JBool false => Some "false"
  | JNum z => Some (Z_to_string z)
  | JStr s => Some (QuoteJSONString s)
  | JArr l =>
      Some ("[" ++ join "," (map (fun x => match JSON_stringify x with
                                           | Some s => s
                                           | None => "null"
                                           end) l) ++ "]")
  | JObj ps =>
      Some ("{" ++ join "," (flat_map (fun p => let '(k, x) := p in
                                          match JSON_stringify x with
                                          | Some s => [QuoteJSONString k ++ ":" ++ s]
                                          | None => []
                                          end) ps) ++ "}")
  end.

End Js.
Export Js.

(** ** Promises, the identity provider and the network *)

(** What a rejected promise or a throw carries: an [Error] made by this
    module, the [TypeError] of a property read on [null] or [undefined] or of
    a string conversion that fails, or a failure raised by the platform (the
    token refresh, the transport, the JSON parser), kept opaque. *)
Inductive Exception : Type :=
| Error (message : string)
| TypeError
| PlatformFailure (what : string).

(** What a call comes to: a promise that resolves (or, for a plain
    expression, its value), a promise that rejects, or an exception thrown
    with no promise returned. *)
Inductive Outcome (A : Type) : Type :=
| Resolved (a : A)
| Rejected (e : Exception)
| Thrown (e : Exception).
Arguments Resolved {A} a.
Arguments Rejected {A} e.
Arguments Thrown {A} e.

(** The second argument of [fetch]. *)
Record Options : Type := {
  method : string;
  headers : list (string * string);
  body : option string
}.

(** [options.body = b] *)
Definition set_body (options : Options) (b : option string) : Options :=
  {| method := method options; headers := headers options; body := b |}.

(** One call of [fetch]: the URL and the options. *)
Definition FetchCall : Type := (string * Options)%type.

(** A response: its status and what [res.json()] settles to. *)
Record Response : Type := {
  status : Z;
  json : Outcome jsvalue
}.

(** [res.ok]: the status is in the range 200-299. *)
Definition ok (res : Response) : bool :=
  (200 <=? status res) && (status res <=? 299).

(** A signed-in user; [getIdToken] is what the promise of
    [user.getIdToken()] settles to. *)
Record User : Type := {
  getIdToken : Outcome string
}.

(** Everything the module reads from outside: [auth.currentUser] ([None]
    for [null]), [import.meta.env.VITE_API_URL] ([None] when not set), and
    the answer of the network to each call of [fetch]. *)
Record World : Type := {
  currentUser : option User;
  VITE_API_URL : option string;
  network : FetchCall -> Outcome Response
}.

(** A computation reads the world, appends the [fetch] calls it makes to the
    log, and comes to an outcome. *)
Definition Async (A : Type) : Type :=
  World -> list FetchCall -> Outcome A * list FetchCall.

Definition ret {A} (a : A) : Async A :=
  fun _ log => (Resolved a, log).

Definition throw {A} (e : Exception) : Async A :=
  fun _ log => (Thrown e, log).

(** Sequencing: the continuation runs on a value; a rejection that is
    awaited and a throw both end the computation. *)
Definition bind {A B} (m : Async A) (k : A -> Async B) : Async B :=
  fun w log =>
    match m w log with
    | (Resolved a, log') => k a w log'
    | (Rejected e, log') => (Rejected e, log')
    | (Thrown e, log') => (Thrown e, log')
    end.

(** The body of an [async] function: whatever it throws rejects the promise
    the function returns. *)
Definition async {A} (body : Async A) : Async A :=
  fun w log =>
    match body w log with
    | (Thrown e, log') => (Rejected e, log')
    | settled => settled
    end.

Notation "x <- m ;; k" := (bind m (fun x => k))
  (at level 61, m at next level, right associativity).

(** [await p] for a platform call whose outcome is known. *)
Definition await {A} (p : Outcome A) : Async A :=
  fun _ log => (p, log).

Definition ask {A} (f : World -> A) : Async A :=
  fun w log => (Resolved (f w), log).

(** [fetch(url, options)]: the call is logged, then the network answers. *)
Definition fetch (url : string) (options : Options) : Async Response :=
  fun w log => (network w (url, options), (log ++ [(url, options)])%list).

(** The substitution of [v] in a template literal, and [v] as the message of
    [new Error]. *)
Definition to_string (v : jsvalue) : Async string :=
  match ToString v with
  | Some s => ret s
  | None => throw TypeError
  end.

(** The outcome of a computation started on an empty log, and the calls of
    [fetch] it made. *)
Definition outcome {A} (m : Async A) (w : World) : Outcome A := fst (m w []).
Definition requests {A} (m : Async A) (w : World) : list FetchCall := snd (m w []).

(** ** The client *)

(** [import.meta.env.VITE_API_URL || 'http://localhost:8000'] *)
Definition API_URL (w : World) : string :=
  match VITE_API_URL w with
  | Some url => if (url =? "")%string then "http://localhost:8000" else url
  | None => "http://localhost:8000"
  end.

Definition getToken : Async string :=
  async (
    user <- ask currentUser ;;
    match user with
    | None => throw (Error "Not authenticated")
    | Some user => await (getIdToken user)
    end).

(** [data.detail]: reading a property of [null] or [undefined] throws. *)
Definition get_detail (data : jsvalue) : Async jsvalue :=
  match data with
  | JUndefined | JNull => throw TypeError
  | _ => match own_property data "detail" with
         | Some d => ret d
         | None => ret JUndefined
         end
  end.

Definition apiCall (method endpoint : string) (body : jsvalue) : Async jsvalue :=
  async (
    let body := default_param body JNull in
    token <- getToken ;;
    let options :=
      {| method := method;
         headers := [("Content-Type", "application/json");
                     ("Authorization", "Bearer " ++ token)];
         body := None |} in
    let options :=
      if truthy body then set_body options (JSON_stringify body) else options in
    base <- ask API_URL ;;
    res <- fetch (base ++ endpoint) options ;;
    data <- await (json res) ;;
    if negb (ok res)
    then detail <- get_detail data ;;
         message <- to_string (or_else detail (JStr "API error")) ;;
         throw (Error message)
    else ret data).

(** *** The exported wrappers

    A call with fewer arguments than parameters passes [JUndefined] for the
    missing ones; a wrapper that gives [apiCall] no body passes
    [JUndefined] for it.  The wrappers are plain functions: one that puts an
    argument into its path converts it to a string first, and throws, with
    [apiCall] not called, when the conversion does. *)

(* AUTH *)
Definition verifyToken : Async jsvalue :=
  apiCall "POST" "/auth/verify" JUndefined.

(* ATTENDANCE *)
Definition timeIn (time_in status : jsvalue) : Async jsvalue :=
  apiCall "POST" "/attendance/time-in"
          (JObj [("time_in", time_in); ("status", status)]).

Definition timeOut (time_out total_hours extra_hours : jsvalue) : Async jsvalue :=
  let extra_hours := default_param extra_hours (JNum 0) in
  apiCall "POST" "/attendance/time-out"
          (JObj [("time_out", time_out); ("total_hours", total_hours);
                 ("extra_hours", extra_hours)]).

Definition getMyAttendance : Async jsvalue :=
  apiCall "GET" "/attendance/me" JUndefined.

Definition getAllAttendance (date : jsvalue) : Async jsvalue :=
  let date := default_param date JNull in
  query <- (if truthy date
            then (date <- to_string date ;; ret ("?date=" ++ date))
            else ret "") ;;
  apiCall "GET" ("/attendance/all" ++ query) JUndefined.

Definition bulkTimeOut (date employee_uids : jsvalue) : Async jsvalue :=
  apiCall "POST" "/attendance/bulk-timeout"
          (JObj [("date", date); ("employee_uids", employee_uids)]).

(* LEAVE *)
Definition fileLeave (type start_date end_date reason : jsvalue) : Async jsvalue :=
  apiCall "POST" "/leave"
          (JObj [("type", type); ("start_date", start_date);
                 ("end_date", end_date); ("reason", reason)]).

Definition getMyLeave : Async jsvalue :=
  apiCall "GET" "/leave/me" JUndefined.

Definition getAllLeave : Async jsvalue :=
  apiCall "GET" "/leave/all" JUndefined.

Definition updateLeaveStatus (uid leaveId status : jsvalue) : Async jsvalue :=
  uid <- to_string uid ;;
  leaveId <- to_string leaveId ;;
  apiCall "PUT" ("/leave/" ++ uid ++ "/" ++ leaveId ++ "/status")
          (JObj [("status", status)]).

(* OVERTIME *)
Definition fileOvertime (date hours reason : jsvalue) : Async jsvalue :=
  apiCall "POST" "/overtime"
          (JObj [("date", date); ("hours", hours); ("reason", reason)]).

Definition getMyOvertime : Async jsvalue :=
  apiCall "GET" "/overtime/me" JUndefined.

Definition getAllOvertime : Async jsvalue :=
  apiCall "GET" "/overtime/all" JUndefined.

Definition updateOTStatus (uid otId status : jsvalue) : Async jsvalue :=
  uid <- to_string uid ;;
  otId <- to_string otId ;;
  apiCall "PUT" ("/overtime/" ++ uid ++ "/" ++ otId ++ "/status")
          (JObj [("status", status)]).

(* REPORTS *)
Definition submitReport (week_start week_end summary : jsvalue) : Async jsvalue :=
  apiCall "POST" "/reports"
          (JObj [("week_start", week_start); ("week_end", week_end);
                 ("summary", summary)]).

Definition getMyReports : Async jsvalue :=
  apiCall "GET" "/reports/me" JUndefined.

Definition getAllReports : Async jsvalue :=
  apiCall "GET" "/reports/all" JUndefined.

Definition updateReportStatus (uid reportId status : jsvalue) : Async jsvalue :=
  uid <- to_string uid ;;
  reportId <- to_string reportId ;;
  apiCall "PUT" ("/reports/" ++ uid ++ "/" ++ reportId ++ "/status")
          (JObj [("status", status)]).

(* PAYROLL *)
Definition generatePayroll (data : jsvalue) : Async jsvalue :=
  apiCall "POST" "/payroll" data.

Definition getMyPayroll : Async jsvalue :=
  apiCall "GET" "/payroll/me" JUndefined.

Definition getEmployeePayroll (uid : jsvalue) : Async jsvalue :=
  uid <- to_string uid ;;
  apiCall "GET" ("/payroll/" ++ uid) JUndefined.

(* USERS *)
Definition getAllUsers : Async jsvalue :=
  apiCall "GET" "/users" JUndefined.

Definition getMyProfile : Async jsvalue :=
  apiCall "GET" "/users/me" JUndefined.

Definition createUser (data : jsvalue) : Async jsvalue :=
  apiCall "POST" "/users" data.

Definition updateUser (uid data : jsvalue) : Async jsvalue :=
  uid <- to_string uid ;;
  apiCall "PUT" ("/users/" ++ uid) data.

Definition toggleUserStatus (uid status : jsvalue) : Async jsvalue :=
  uid <- to_string uid ;;
  apiCall "PUT" ("/users/" ++ uid ++ "/status")
          (JObj [("status", status)]).

(** A call of an exported operation: which one, and its arguments. *)
Inductive Operation : Type :=
| VerifyToken
| TimeIn (time_in status : jsvalue)
| TimeOut (time_out total_hours extra_hours : jsvalue)
| GetMyAttendance
| GetAllAttendance (date : jsvalue)
| BulkTimeOut (date employee_uids : jsvalue)
| FileLeave (type start_date end_date reason : jsvalue)
| GetMyLeave
| GetAllLeave
| UpdateLeaveStatus (uid leaveId status : jsvalue)
| FileOvertime (date hours reason : jsvalue)
| GetMyOvertime
| GetAllOvertime
| UpdateOTStatus (uid otId status : jsvalue)
| SubmitReport (week_start week_end summary : jsvalue)
| GetMyReports
| GetAllReports
| UpdateReportStatus (uid reportId status : jsvalue)
| GeneratePayroll (data : jsvalue)
| GetMyPayroll
| GetEmployeePayroll (uid : jsvalue)
| GetAllUsers
| GetMyProfile
| CreateUser (data : jsvalue)
| UpdateUser (uid data : jsvalue)
| ToggleUserStatus (uid status : jsvalue).

Definition exec (op : Operation) : Async jsvalue :=
  match op with
  | VerifyToken => verifyToken
  | TimeIn a b => timeIn a b
  | TimeOut a b c => timeOut a b c
  | GetMyAttendance => getMyAttendance
  | GetAllAttendance d => getAllAttendance d
  | BulkTimeOut a b => bulkTimeOut a b
  | FileLeave a b c d => fileLeave a b c d
  | GetMyLeave => getMyLeave
  | GetAllLeave => getAllLeave
  | UpdateLeaveStatus a b c => updateLeaveStatus a b c
  | FileOvertime a b c => fileOvertime a b c
  | GetMyOvertime => getMyOvertime
  | GetAllOvertime => getAllOvertime
  | UpdateOTStatus a b c => updateOTStatus a b c
  | SubmitReport a b c => submitReport a b c
  | GetMyReports => getMyReports
  | GetAllReports => getAllReports
  | UpdateReportStatus a b c => updateReportStatus a b c
  | GeneratePayroll d => generatePayroll d
  | GetMyPayroll => getMyPayroll
  | GetEmployeePayroll u => getEmployeePayroll u
  | GetAllUsers => getAllUsers
  | GetMyProfile => getMyProfile
  | CreateUser d => createUser d
  | UpdateUser u d => updateUser u d
  | ToggleUserStatus u s => toggleUserStatus u s
  end.

(** Sample worlds: a signed-in user whose token is [tok] and a server that
    answers every request with the given status and parsed body; and a world
    with nobody signed in. *)
Definition answering (code : Z) (parsed : jsvalue) : World :=
  {| currentUser := Some {| getIdToken := Resolved "tok" |};
     VITE_API_URL := None;
     network := fun _ => Resolved {| status := code; json := Resolved parsed |} |}.

Definition signed_out : World :=
  {| currentUser := None;
     VITE_API_URL := None;
     network := fun _ => Rejected (PlatformFailure "offline") |}.

(** The request [apiCall] builds once the token [t] is known. *)
Definition built (w : World) (t m e : string) (b : jsvalue) : FetchCall :=
  (API_URL w ++ e,
   {| method := m;
      headers := [("Content-Type", "application/json");
                  ("Authorization", "Bearer " ++ t)];
      body := if truthy b then JSON_stringify b else None |}).

(** How [apiCall] settles on the answer [r] of the network; [rejection] is
    the branch taken when [res.ok] is false. *)
Definition error_of (v : jsvalue) : Outcome jsvalue :=
  match ToString v with
  | Some message => Rejected (Error message)
  | None => Rejected TypeError
  end.

Definition rejection (data : jsvalue) : Outcome jsvalue :=
  match data with
  | JUndefined | JNull => Rejected TypeError
  | _ => match own_property data "detail" with
         | Some d => error_of (or_else d (JStr "API error"))
         | None => Rejected (Error "API error")
         end
  end.

Definition settle (r : Outcome Response) : Outcome jsvalue :=
  match r with
  | Rejected x | Thrown x => Rejected x
  | Resolved res =>
      match json res with
      | Rejected x | Thrown x => Rejected x
      | Resolved data => if ok res then Resolved data else rejection data
      end
  end.

(** The arguments a wrapper converts to strings for its path: the date of
    [getAllAttendance] when it is truthy, and the identifiers of the wrappers
    whose path names a user or a record. *)
Definition path_arguments (op : Operation) : list jsvalue :=
  match op with
  | GetAllAttendance date =>
      let date := default_param date JNull in
      if truthy date then [date] else []
  | UpdateLeaveStatus uid leaveId _ => [uid; leaveId]
  | UpdateOTStatus uid otId _ => [uid; otId]
  | UpdateReportStatus uid reportId _ => [uid; reportId]
  | GetEmployeePayroll uid => [uid]
  | UpdateUser uid _ => [uid]
  | ToggleUserStatus uid _ => [uid]
  | _ => []
  end.

(** An object with an own [toString], as JSON can carry it: its string
    conversion throws. *)
Definition unprintable : jsvalue := JObj [("toString", JNum 1)].

(** More sample worlds, one per failure path: a session whose token refresh
    fails, a signed-in user with no network, and a server whose answer is not
    JSON. *)
Definition stale_session : World :=
  {| currentUser := Some {| getIdToken := Rejected (PlatformFailure "token refresh failed") |};
     VITE_API_URL := None;
     network := fun _ => Resolved {| status := 200; json := Resolved JNull |} |}.

Definition offline : World :=
  {| currentUser := Some {| getIdToken := Resolved "tok" |};
     VITE_API_URL := None;
     network := fun _ => Rejected (PlatformFailure "Failed to fetch") |}.

Definition garbled (code : Z) : World :=
  {| currentUser := Some {| getIdToken := Resolved "tok" |};
     VITE_API_URL := None;
     network := fun _ => Resolved {| status := code;
                                     json := Rejected (PlatformFailure "Unexpected token") |} |}.

(** The wrappers that hand [apiCall] an object literal as body. *)
Definition object_literal_body (op : Operation) : bool :=
  match op with
  | TimeIn _ _ | TimeOut _ _ _ | BulkTimeOut _ _ | FileLeave _ _ _ _
  | UpdateLeaveStatus _ _ _ | FileOvertime _ _ _ | UpdateOTStatus _ _ _
  | SubmitReport _ _ _ | UpdateReportStatus _ _ _ | ToggleUserStatus _ _ => true
  | _ => false
  end.

(** Whether the character [c] occurs in [s]. *)
Fixpoint occurs (c : ascii) (s : string) : bool :=
  match s with
  | EmptyString => false
  | String c' rest => (c' =? c)%char || occurs c rest
  end.

Definition slash : ascii := ascii_of_N 47.

(** * Properties *)

(** ** The request primitive, step by step *)

Lemma truthy_default_null (b : jsvalue) :
  truthy (default_param b JNull) = truthy b.
Proof. destruct b; reflexivity. Qed.

Lemma truthy_default_same (b : jsvalue) :
  truthy b = true -> default_param b JNull = b.
Proof. destruct b; simpl; intros H; try reflexivity; discriminate. Qed.

Lemma truthy_serializes (b : jsvalue) :
  truthy b = true -> JSON_stringify b <> None.
Proof.
  destruct b as [| |[|]| | | | |]; simpl; intros H; try discriminate.
Qed.

Lemma getToken_signed_out (w : World) (log : list FetchCall) :
  currentUser w = None ->
  getToken w log = (Rejected (Error "Not authenticated"), log).
Proof.
  intros Hu. unfold getToken, async, bind, ask, throw. rewrite Hu. reflexivity.
Qed.

Lemma getToken_signed_in (w : World) (log : list FetchCall) (u : User) :
  currentUser w = Some u ->
  getToken w log
  = (match getIdToken u with
     | Resolved t => Resolved t
     | Rejected x | Thrown x => Rejected x
     end, log).
Proof.
  intros Hu. unfold getToken, async, bind, ask, await. rewrite Hu.
  destruct (getIdToken u); reflexivity.
Qed.

(** With nobody signed in, [apiCall] rejects at once and leaves the log as
    it found it. *)
Lemma apiCall_signed_out (m e : string) (b : jsvalue) (w : World) (log : list FetchCall) :
  currentUser w = None ->
  apiCall m e b w log = (Rejected (Error "Not authenticated"), log).
Proof.
  intros Hu. unfold apiCall, async, bind.
  rewrite (getToken_signed_out w log Hu). reflexivity.
Qed.

(** A token refresh that fails rejects the call, again with no request. *)
Lemma apiCall_token_failure (m e : string) (b : jsvalue) (w : World)
      (log : list FetchCall) (u : User) (x : Exception) :
  currentUser w = Some u -> getIdToken u = Rejected x \/ getIdToken u = Thrown x ->
  apiCall m e b w log = (Rejected x, log).
Proof.
  intros Hu Ht. unfold apiCall, async, bind.
  rewrite (getToken_signed_in w log u Hu).
  destruct Ht as [Ht|Ht]; rewrite Ht; reflexivity.
Qed.

Lemma apiCall_signed_in (m e : string) (b : jsvalue) (w : World)
      (log : list FetchCall) (u : User) (t : string) :
  currentUser w = Some u -> getIdToken u = Resolved t ->
  apiCall m e b w log
  = (settle (network w (built w t m e b)), (log ++ [built w t m e b])%list).
Proof.
  intros Hu Ht.
  unfold apiCall, async, bind at 1.
  rewrite (getToken_signed_in w log u Hu), Ht.
  unfold bind, ask, await, fetch, built, settle.
  rewrite truthy_default_null.
  assert (Hbody : (if truthy b
                   then set_body {| method := m;
                                    headers := [("Content-Type", "application/json");
                                                ("Authorization", "Bearer " ++ t)];
                                    body := None |}
                                 (JSON_stringify (default_param b JNull))
                   else {| method := m;
                           headers := [("Content-Type", "application/json");
                                       ("Authorization", "Bearer " ++ t)];
                           body := None |})
                  = {| method := m;
                       headers := [("Content-Type", "application/json");
                                   ("Authorization", "Bearer " ++ t)];
                       body := if truthy b then JSON_stringify b else None |}).
  { destruct (truthy b) eqn:Hb; [|reflexivity].
    rewrite (truthy_default_same b Hb). reflexivity. }
  rewrite Hbody.
  destruct (network w _) as [res|x|x]; try reflexivity.
  destruct (json res) as [data|x|x]; try reflexivity.
  destruct (ok res); cbn [negb]; [reflexivity|].
  unfold get_detail, rejection, error_of, to_string, throw, ret, own_property.
  destruct data as [| |bb|z| |s|l|ps]; try reflexivity.
  destruct (assoc "detail" ps) as [d|]; [|reflexivity].
  destruct (ToString (or_else d (JStr "API error"))); reflexivity.
Qed.

(** A request in the log means that somebody was signed in and the token
    was obtained. *)
Lemma apiCall_request_inv (m e : string) (b : jsvalue) (w : World) (call : FetchCall) :
  requests (apiCall m e b) w = [call] ->
  exists u t, currentUser w = Some u /\ getIdToken u = Resolved t
              /\ call = built w t m e b.
Proof.
  unfold requests. intros H.
  destruct (currentUser w) as [u|] eqn:Hu.
  - destruct (getIdToken u) as [t|x|x] eqn:Ht.
    + rewrite (apiCall_signed_in m e b w [] u t Hu Ht) in H. simpl in H.
      exists u, t. repeat split; congruence.
    + rewrite (apiCall_token_failure m e b w [] u x Hu (or_introl Ht)) in H. discriminate.
    + rewrite (apiCall_token_failure m e b w [] u x Hu (or_intror Ht)) in H. discriminate.
  - rewrite (apiCall_signed_out m e b w [] Hu) in H. discriminate.
Qed.

Lemma apiCall_answered (m e : string) (b : jsvalue) (w : World) (call : FetchCall) :
  requests (apiCall m e b) w = [call] ->
  outcome (apiCall m e b) w = settle (network w call).
Proof.
  intros H. destruct (apiCall_request_inv m e b w call H) as (u & t & Hu & Ht & ->).
  unfold outcome. rewrite (apiCall_signed_in m e b w [] u t Hu Ht). reflexivity.
Qed.

(** The substitutions of a wrapper's path, one by one. *)
Lemma to_string_bind_some {A} (v : jsvalue) (s : string) (k : string -> Async A) :
  ToString v = Some s -> bind (to_string v) k = k s.
Proof. intros H. unfold to_string. rewrite H. reflexivity. Qed.

(** Every wrapper either throws while building its path, which happens
    exactly when a path argument does not convert, or is one call of
    [apiCall], with one of three methods, a path that starts with a slash,
    no body when the method is GET, and an object as body for the wrappers
    that write their body as an object literal. *)
Lemma exec_cases (op : Operation) :
  (forallb converts (path_arguments op) = true
   /\ exists m e b,
       exec op = apiCall m ("/" ++ e) b
       /\ (m = "GET" \/ m = "POST" \/ m = "PUT")
       /\ (m = "GET" -> b = JUndefined)
       /\ (object_literal_body op = true -> m <> "GET" /\ exists ps, b = JObj ps))
  \/ (forallb converts (path_arguments op) = false /\ exec op = throw TypeError).
Proof.
  destruct op; cbn [exec path_arguments object_literal_body];
    unfold getAllAttendance, updateLeaveStatus, updateOTStatus,
      updateReportStatus, getEmployeePayroll, updateUser, toggleUserStatus, to_string;
    repeat match goal with
           | |- context [truthy ?v] => destruct (truthy v)
           end;
    cbn [forallb]; unfold converts;
    repeat match goal with
           | |- context [ToString ?v] => destruct (ToString v)
           end;
    first
      [ right; split; reflexivity
      | left; split; [reflexivity|];
        do 3 eexists; split; [reflexivity|];
        split; [auto|]; split;
        [ first [intros _; reflexivity | discriminate]
        | intros Hlit; first [discriminate Hlit | split; [discriminate|eexists; reflexivity]] ] ].
Qed.

(** An operation that sent a request, resolved or rejected did not throw: it
    is a call of [apiCall]. *)
Lemma exec_sent (op : Operation) (w : World) (call : FetchCall) :
  In call (requests (exec op) w) ->
  exists m e b,
    exec op = apiCall m ("/" ++ e) b
    /\ (m = "GET" \/ m = "POST" \/ m = "PUT")
    /\ (m = "GET" -> b = JUndefined).
Proof.
  intros Hin. destruct (exec_cases op) as [(_ & m & e & b & Hop & Hm & Hget & _)|(_ & Hop)].
  - exists m, e, b. auto.
  - rewrite Hop in Hin. destruct Hin.
Qed.

Lemma exec_sent_one (op : Operation) (w : World) (call : FetchCall) :
  requests (exec op) w = [call] ->
  exists m e b,
    exec op = apiCall m ("/" ++ e) b
    /\ (m = "GET" \/ m = "POST" \/ m = "PUT")
    /\ (m = "GET" -> b = JUndefined).
Proof.
  intros H. apply (exec_sent op w call). rewrite H. left. reflexivity.
Qed.

Lemma exec_converts (op : Operation) :
  forallb converts (path_arguments op) = true ->
  exists m e b,
    exec op = apiCall m ("/" ++ e) b
    /\ (m = "GET" \/ m = "POST" \/ m = "PUT").
Proof.
  intros Hc. destruct (exec_cases op) as [(_ & m & e & b & Hop & Hm & _)|(Hn & _)].
  - exists m, e, b. auto.
  - congruence.
Qed.

(** [apiCall] hands its method to [fetch] unchanged, so two calls that behave
    alike were given the same method. *)
Lemma apiCall_method_inj (m e m' e' : string) (b b' : jsvalue) :
  apiCall m e b = apiCall m' e' b' -> m = m'.
Proof.
  intros H.
  pose (w := answering 200 JNull).
  assert (Hw : snd (apiCall m e b w []) = snd (apiCall m' e' b' w [])) by (rewrite H; reflexivity).
  rewrite (apiCall_signed_in m e b w [] _ "tok" eq_refl eq_refl) in Hw.
  rewrite (apiCall_signed_in m' e' b' w [] _ "tok" eq_refl eq_refl) in Hw.
  simpl in Hw. unfold built in Hw. congruence.
Qed.

Lemma apiCall_is_no_throw (m e : string) (b : jsvalue) (x : Exception) :
  apiCall m e b <> throw x.
Proof.
  intros H.
  assert (Hw : fst (apiCall m e b signed_out []) = fst (@throw jsvalue x signed_out []))
    by (rewrite H; reflexivity).
  rewrite (apiCall_signed_out m e b signed_out [] eq_refl) in Hw. discriminate.
Qed.

(** ** The claims *)

(** C2. For every exported operation: when the response to the request it
    issued has a status in 200-299 and its body parses as JSON, the operation
    resolves with the parsed body, unchanged, whatever its shape. *)
Theorem success_returns_parsed_body
        (op : Operation) (w : World) (call : FetchCall) (res : Response) (data : jsvalue) :
  requests (exec op) w = [call] ->
  network w call = Resolved res ->
  200 <= status res <= 299 ->
  json res = Resolved data ->
  outcome (exec op) w = Resolved data.
Proof.
  intros Hreq Hnet Hst Hjs.
  destruct (exec_sent_one op w call Hreq) as (m & e & b & Hop & _). rewrite Hop in *.
  rewrite (apiCall_answered m _ b w call Hreq), Hnet. unfold settle, ok.
  rewrite Hjs.
  replace (200 <=? status res) with true by (symmetry; apply Z.leb_le; lia).
  replace (status res <=? 299) with true by (symmetry; apply Z.leb_le; lia).
  reflexivity.
Qed.

Lemma success_returns_parsed_body_witness :
  outcome (exec (TimeIn (JStr "09:00") (JStr "present")))
          (answering 201 (JArr [JNum 1; JObj [("id", JStr "a1")]]))
  = Resolved (JArr [JNum 1; JObj [("id", JStr "a1")]]).
Proof.
  eapply (success_returns_parsed_body _ (answering 201 _) _
            {| status := 201; json := Resolved _ |}).
  - reflexivity.
  - reflexivity.
  - simpl. lia.
  - reflexivity.
Defined.

(** C3, as the code has it. For every exported operation: with no current
    user no call of [fetch] is made and the operation fails, with the error
    [Not authenticated] whenever the arguments it puts into its path convert
    to strings; when one does not, the wrapper throws a [TypeError] while
    building the path, before the session is looked at. *)
Theorem unauthenticated_before_any_request (op : Operation) (w : World) :
  currentUser w = None ->
  requests (exec op) w = []
  /\ (forallb converts (path_arguments op) = true ->
      outcome (exec op) w = Rejected (Error "Not authenticated"))
  /\ (forallb converts (path_arguments op) = false ->
      outcome (exec op) w = Thrown TypeError).
Proof.
  intros Hu.
  destruct (exec_cases op) as [(Hc & m & e & b & Hop & _)|(Hc & Hop)]; rewrite Hop, Hc.
  - unfold outcome, requests. rewrite (apiCall_signed_out m _ b w [] Hu).
    split; [reflexivity|]. split; [reflexivity|discriminate].
  - split; [reflexivity|]. split; [discriminate|reflexivity].
Qed.

Lemma unauthenticated_before_any_request_witness :
  outcome (exec (GetEmployeePayroll (JStr "u7"))) signed_out
  = Rejected (Error "Not authenticated").
Proof.
  apply (proj1 (proj2 (unauthenticated_before_any_request
                         (GetEmployeePayroll (JStr "u7")) signed_out eq_refl))).
  reflexivity.
Defined.

(** C3 as stated fails for a wrapper given a path argument that does not
    convert to a string: with nobody signed in the call throws a [TypeError],
    not the error [Not authenticated]. *)
Lemma unprintable_id_throws_first :
  currentUser signed_out = None
  /\ outcome (exec (GetEmployeePayroll unprintable)) signed_out = Thrown TypeError
  /\ outcome (exec (GetEmployeePayroll unprintable)) signed_out
     <> Rejected (Error "Not authenticated").
Proof.
  split; [reflexivity|]. split; [reflexivity|discriminate].
Qed.

(** C4. For every exported operation and every resolved token [t]: every
    request the operation issues has as headers Content-Type:
    application/json and Authorization: Bearer [t], and nothing else; and it
    issues exactly one whenever the arguments of its path convert to
    strings. *)
Theorem request_headers (op : Operation) (w : World) (u : User) (t : string) :
  currentUser w = Some u ->
  getIdToken u = Resolved t ->
  (forall call, In call (requests (exec op) w) ->
                headers (snd call) = [("Content-Type", "application/json");
                                      ("Authorization", "Bearer " ++ t)])
  /\ (forallb converts (path_arguments op) = true ->
      exists url opts,
        requests (exec op) w = [(url, opts)]
        /\ headers opts = [("Content-Type", "application/json");
                           ("Authorization", "Bearer " ++ t)]).
Proof.
  intros Hu Ht. split.
  - intros call Hin. destruct (exec_sent op w call Hin) as (m & e & b & Hop & _).
    rewrite Hop in Hin. unfold requests in Hin.
    rewrite (apiCall_signed_in m _ b w [] u t Hu Ht) in Hin. simpl in Hin.
    destruct Hin as [<-|[]]. reflexivity.
  - intros Hc. destruct (exec_converts op Hc) as (m & e & b & Hop & _). rewrite Hop.
    unfold requests. rewrite (apiCall_signed_in m _ b w [] u t Hu Ht).
    unfold built. simpl. eauto.
Qed.

Lemma request_headers_witness :
  exists url opts,
    requests (exec (UpdateUser (JStr "u7") (JObj [("name", JStr "Ana")])))
             (answering 200 JNull) = [(url, opts)]
    /\ headers opts = [("Content-Type", "application/json");
                       ("Authorization", "Bearer tok")].
Proof.
  apply (proj2 (request_headers (UpdateUser (JStr "u7") (JObj [("name", JStr "Ana")]))
                  (answering 200 JNull) {| getIdToken := Resolved "tok" |} "tok"
                  eq_refl eq_refl)).
  reflexivity.
Defined.

(** C5. Every exported wrapper whose path arguments convert to strings is a
    call of the request primitive with GET, POST or PUT (with an argument
    that does not convert, the wrapper throws while building the path and the
    primitive is not called); whatever call of the primitive a wrapper is,
    its method is GET, POST or PUT; each of the three is used by some
    wrapper, and none uses DELETE. *)
Theorem wrapper_methods :
  (forall op, (forallb converts (path_arguments op) = true
               /\ exists m e b,
                   exec op = apiCall m e b /\ (m = "GET" \/ m = "POST" \/ m = "PUT"))
              \/ (forallb converts (path_arguments op) = false
                  /\ exec op = throw TypeError))
  /\ (forall op m e b,
         exec op = apiCall m e b -> m = "GET" \/ m = "POST" \/ m = "PUT")
  /\ (forall m, m = "GET" \/ m = "POST" \/ m = "PUT" ->
                exists op e b, exec op = apiCall m e b)
  /\ (forall op e b, exec op <> apiCall "DELETE" e b).
Proof.
  assert (Hall : forall op m e b,
             exec op = apiCall m e b -> m = "GET" \/ m = "POST" \/ m = "PUT").
  { intros op m e b H.
    destruct (exec_cases op) as [(_ & m' & e' & b' & Hop & Hm & _)|(_ & Hop)].
    - rewrite Hop in H. rewrite <- (apiCall_method_inj _ _ _ _ _ _ H). exact Hm.
    - rewrite Hop in H. symmetry in H. elim (apiCall_is_no_throw m e b TypeError H). }
  split; [|split; [exact Hall|split]].
  - intros op. destruct (exec_cases op) as [(Hc & m & e & b & Hop & Hm & _)|(Hc & Hop)].
    + left. split; [exact Hc|]. exists m, ("/" ++ e), b. auto.
    + right. split; [exact Hc|exact Hop].
  - intros m [->|[->| ->]].
    + exists GetMyAttendance. do 2 eexists. reflexivity.
    + exists VerifyToken. do 2 eexists. reflexivity.
    + exists (ToggleUserStatus JNull JNull). do 2 eexists. reflexivity.
  - intros op e b H. destruct (Hall op _ _ _ H) as [D|[D|D]]; discriminate D.
Qed.

Lemma wrapper_methods_witness :
  "PUT" = "GET" \/ "PUT" = "POST" \/ "PUT" = "PUT".
Proof.
  exact (proj1 (proj2 wrapper_methods)
               (UpdateLeaveStatus (JStr "u1") (JStr "l1") (JStr "approved"))
               "PUT" "/leave/u1/l1/status" (JObj [("status", JStr "approved")])
               eq_refl).
Defined.

Lemma not_ok (res : Response) :
  ~ (200 <= status res <= 299) -> ok res = false.
Proof.
  intros H. unfold ok.
  destruct (200 <=? status res) eqn:Hlo; [|reflexivity].
  destruct (status res <=? 299) eqn:Hhi; [|reflexivity].
  apply Z.leb_le in Hlo. apply Z.leb_le in Hhi. lia.
Qed.

Lemma truthy_string (X : string) : X <> "" -> truthy (JStr X) = true.
Proof. destruct X; [congruence|reflexivity]. Qed.

Lemma rejection_of_detail (data : jsvalue) :
  data <> JNull -> data <> JUndefined ->
  rejection data
  = match own_property data "detail" with
    | Some d => error_of (or_else d (JStr "API error"))
    | None => Rejected (Error "API error")
    end.
Proof.
  intros Hn Hu. unfold rejection. destruct data; congruence.
Qed.

(** How a failure response settles, in one equation. *)
Lemma exec_failure (op : Operation) (w : World) (call : FetchCall) (res : Response)
      (data : jsvalue) :
  requests (exec op) w = [call] ->
  network w call = Resolved res ->
  ~ (200 <= status res <= 299) ->
  json res = Resolved data ->
  outcome (exec op) w = rejection data.
Proof.
  intros Hreq Hnet Hst Hjs. destruct (exec_sent_one op w call Hreq) as (m & e & b & Hop & _).
  rewrite Hop in *.
  rewrite (apiCall_answered m _ b w call Hreq), Hnet. unfold settle.
  rewrite Hjs, (not_ok res Hst). reflexivity.
Qed.

(** C1, as the code has it. For every exported operation: when the response
    has a status outside 200-299 and its body parses to a JSON value other
    than [null], the operation rejects with an error whose message is the
    body's [detail] when that field is present and truthy (for a non-empty
    string X exactly X, for any other truthy value that converts to a string
    its string form), and exactly [API error] when the field is absent or
    falsy. *)
Theorem failure_message
        (op : Operation) (w : World) (call : FetchCall) (res : Response) (data : jsvalue) :
  requests (exec op) w = [call] ->
  network w call = Resolved res ->
  ~ (200 <= status res <= 299) ->
  json res = Resolved data ->
  data <> JNull -> data <> JUndefined ->
  (forall X, own_property data "detail" = Some (JStr X) -> X <> "" ->
             outcome (exec op) w = Rejected (Error X))
  /\ (forall d s, own_property data "detail" = Some d -> truthy d = true ->
                  ToString d = Some s ->
                  outcome (exec op) w = Rejected (Error s))
  /\ (forall d, own_property data "detail" = Some d -> truthy d = false ->
                outcome (exec op) w = Rejected (Error "API error"))
  /\ (own_property data "detail" = None ->
      outcome (exec op) w = Rejected (Error "API error")).
Proof.
  intros Hreq Hnet Hst Hjs Hnull Hundef.
  rewrite (exec_failure op w call res data Hreq Hnet Hst Hjs).
  rewrite (rejection_of_detail data Hnull Hundef).
  assert (Htruthy : forall d s, own_property data "detail" = Some d -> truthy d = true ->
                                ToString d = Some s ->
                                match own_property data "detail" with
                                | Some d => error_of (or_else d (JStr "API error"))
                                | None => Rejected (Error "API error")
                                end = Rejected (Error s)).
  { intros d s Hd Ht Hs. rewrite Hd. unfold or_else, error_of. rewrite Ht, Hs. reflexivity. }
  split; [|split; [exact Htruthy|split]].
  - intros X Hd HX. exact (Htruthy (JStr X) X Hd (truthy_string X HX) eq_refl).
  - intros d Hd Hf. rewrite Hd. unfold or_else. rewrite Hf. reflexivity.
  - intros Hd. rewrite Hd. reflexivity.
Qed.

Lemma failure_message_witness :
  outcome (exec (CreateUser (JObj [("email", JStr "a@b.c")])))
          (answering 403 (JObj [("detail", JStr "Admin access required")]))
  = Rejected (Error "Admin access required").
Proof.
  refine (proj1 (failure_message (CreateUser (JObj [("email", JStr "a@b.c")]))
                   (answering 403 (JObj [("detail", JStr "Admin access required")]))
                   (built (answering 403 JNull) "tok" "POST" "/users"
                          (JObj [("email", JStr "a@b.c")]))
                   {| status := 403;
                      json := Resolved (JObj [("detail", JStr "Admin access required")]) |}
                   (JObj [("detail", JStr "Admin access required")])
                   eq_refl eq_refl _ eq_refl _ _)
                "Admin access required" eq_refl _).
  - simpl. lia.
  - discriminate.
  - discriminate.
  - discriminate.
Defined.

(** C1 as stated fails on the failure body whose [detail] is the empty
    string: the field is present, yet the message is [API error], not the
    empty string. *)
Lemma empty_detail_falls_back :
  own_property (JObj [("detail", JStr "")]) "detail" = Some (JStr "")
  /\ (status {| status := 400; json := Resolved (JObj [("detail", JStr "")]) |} < 200
      \/ 299 < status {| status := 400; json := Resolved (JObj [("detail", JStr "")]) |})
  /\ outcome (exec VerifyToken) (answering 400 (JObj [("detail", JStr "")]))
     = Rejected (Error "API error")
  /\ outcome (exec VerifyToken) (answering 400 (JObj [("detail", JStr "")]))
     <> Rejected (Error "").
Proof.
  split; [reflexivity|]. split; [right; simpl; lia|].
  split; [reflexivity|]. discriminate.
Qed.

(** The calls of [fetch] made by a call of [apiCall] when signed in. *)
Lemma apiCall_requests (m e : string) (b : jsvalue) (w : World) (u : User) (t : string) :
  currentUser w = Some u -> getIdToken u = Resolved t ->
  requests (apiCall m e b) w = [built w t m e b].
Proof.
  intros Hu Ht. unfold requests.
  rewrite (apiCall_signed_in m e b w [] u t Hu Ht). reflexivity.
Qed.

Lemma getAllAttendance_truthy (date : jsvalue) (s : string) :
  truthy date = true -> ToString date = Some s ->
  getAllAttendance date = apiCall "GET" ("/attendance/all" ++ "?date=" ++ s) JUndefined.
Proof.
  intros Hd Hs. unfold getAllAttendance, to_string.
  rewrite truthy_default_null, Hd, (truthy_default_same date Hd), Hs. reflexivity.
Qed.

(** C6, as the code has it. [getAllAttendance] called with a truthy date
    that converts to a string (any non-empty string in particular) requests
    the path /attendance/all followed by ?date= and the date, once; called
    with no date it requests /attendance/all with no query string. *)
Theorem getAllAttendance_path (w : World) (u : User) (t : string) :
  currentUser w = Some u ->
  getIdToken u = Resolved t ->
  (forall date s, truthy date = true -> ToString date = Some s ->
     map fst (requests (getAllAttendance date) w)
     = [API_URL w ++ "/attendance/all" ++ "?date=" ++ s])
  /\ (forall d, d <> "" ->
        map fst (requests (getAllAttendance (JStr d)) w)
        = [API_URL w ++ "/attendance/all?date=" ++ d])
  /\ map fst (requests (getAllAttendance JUndefined) w)
     = [API_URL w ++ "/attendance/all"].
Proof.
  intros Hu Ht.
  assert (Hdate : forall date s, truthy date = true -> ToString date = Some s ->
            map fst (requests (getAllAttendance date) w)
            = [API_URL w ++ "/attendance/all" ++ "?date=" ++ s]).
  { intros date s Hd Hs. rewrite (getAllAttendance_truthy date s Hd Hs).
    rewrite (apiCall_requests _ _ _ w u t Hu Ht). reflexivity. }
  split; [exact Hdate|]. split.
  - intros d Hd. exact (Hdate (JStr d) d (truthy_string d Hd) eq_refl).
  - change (getAllAttendance JUndefined) with (apiCall "GET" "/attendance/all" JUndefined).
    rewrite (apiCall_requests _ _ _ w u t Hu Ht). reflexivity.
Qed.

Lemma getAllAttendance_path_witness :
  map fst (requests (getAllAttendance (JStr "2024-05-01")) (answering 200 (JArr [])))
  = ["http://localhost:8000/attendance/all?date=2024-05-01"].
Proof.
  apply (proj1 (proj2 (getAllAttendance_path (answering 200 (JArr []))
                         {| getIdToken := Resolved "tok" |} "tok" eq_refl eq_refl))
               "2024-05-01").
  discriminate.
Defined.

(** C6 as stated fails when the date argument is the empty string: an
    argument is given, and the path has no ?date= suffix. *)
Lemma getAllAttendance_empty_date_no_suffix :
  map fst (requests (getAllAttendance (JStr "")) (answering 200 (JArr [])))
  = ["http://localhost:8000/attendance/all"]
  /\ map fst (requests (getAllAttendance (JStr "")) (answering 200 (JArr [])))
     <> ["http://localhost:8000/attendance/all" ++ "?date=" ++ ""].
Proof.
  split; [reflexivity|discriminate].
Qed.

Lemma string_app_assoc (s1 s2 s3 : string) :
  (s1 ++ s2) ++ s3 = s1 ++ (s2 ++ s3).
Proof.
  induction s1 as [|c s1 IH]; simpl; [reflexivity|].
  rewrite IH. reflexivity.
Qed.

Lemma JSON_stringify_JObj (ps : list (string * jsvalue)) :
  JSON_stringify (JObj ps)
  = Some ("{" ++ join "," (flat_map (fun p => let '(k, x) := p in
                                       match JSON_stringify x with
                                       | Some s => [QuoteJSONString k ++ ":" ++ s]
                                       | None => []
                                       end) ps) ++ "}").
Proof. reflexivity. Qed.

(** C7. [timeOut] called with two arguments sends the object made of the
    given [time_out] and [total_hours] and of [extra_hours] with value 0:
    the body is its serialization, which ends with the field extra_hours:0
    and, when the two given values serialize to [a] and [b], reads
    time_out:a, total_hours:b, extra_hours:0. *)
Theorem timeOut_default_extra_hours
        (w : World) (u : User) (t : string) (time_out total_hours : jsvalue) :
  currentUser w = Some u ->
  getIdToken u = Resolved t ->
  exists opts,
    requests (timeOut time_out total_hours JUndefined) w
    = [(API_URL w ++ "/attendance/time-out", opts)]
    /\ method opts = "POST"
    /\ body opts = JSON_stringify (JObj [("time_out", time_out);
                                         ("total_hours", total_hours);
                                         ("extra_hours", JNum 0)])
    /\ (exists front, body opts = Some (front ++ json_text "'extra_hours':0}"))
    /\ (forall a b, JSON_stringify time_out = Some a ->
                    JSON_stringify total_hours = Some b ->
                    body opts = Some (json_text "{'time_out':" ++ a
                                      ++ json_text ",'total_hours':" ++ b
                                      ++ json_text ",'extra_hours':0}")).
Proof.
  intros Hu Ht. unfold timeOut. cbn [default_param].
  rewrite (apiCall_requests _ _ _ w u t Hu Ht). unfold built.
  eexists. split; [reflexivity|]. cbn [method body truthy].
  split; [reflexivity|]. split; [reflexivity|].
  rewrite JSON_stringify_JObj. cbn [flat_map].
  change (JSON_stringify (JNum 0)) with (Some "0").
  split.
  - destruct (JSON_stringify time_out) as [a|], (JSON_stringify total_hours) as [b|];
      cbn [app join].
    + exists ("{" ++ QuoteJSONString "time_out" ++ ":" ++ a ++ ","
                  ++ QuoteJSONString "total_hours" ++ ":" ++ b ++ ",").
      rewrite !string_app_assoc. reflexivity.
    + exists ("{" ++ QuoteJSONString "time_out" ++ ":" ++ a ++ ",").
      rewrite !string_app_assoc. reflexivity.
    + exists ("{" ++ QuoteJSONString "total_hours" ++ ":" ++ b ++ ",").
      rewrite !string_app_assoc. reflexivity.
    + exists "{". reflexivity.
  - intros a b Ha Hb. rewrite Ha, Hb. cbn [app join].
    rewrite !string_app_assoc. reflexivity.
Qed.

Lemma timeOut_default_extra_hours_witness :
  exists opts,
    requests (timeOut (JStr "17:00") (JNum 8) JUndefined) (answering 200 JNull)
    = [("http://localhost:8000/attendance/time-out", opts)]
    /\ body opts
       = Some (json_text "{'time_out':'17:00','total_hours':8,'extra_hours':0}").
Proof.
  destruct (timeOut_default_extra_hours (answering 200 JNull)
              {| getIdToken := Resolved "tok" |} "tok" (JStr "17:00") (JNum 8)
              eq_refl eq_refl) as (opts & Hreq & _ & _ & _ & Hbody).
  exists opts. split; [exact Hreq|].
  exact (Hbody _ _ eq_refl eq_refl).
Defined.

(** C8. [timeIn] of 09:00 and present issues exactly one request: POST to
    /attendance/time-in under the base URL, with the two standard headers and
    the body time_in:09:00, status:present serialized as JSON. *)
Theorem timeIn_example (w : World) (u : User) (t : string) :
  currentUser w = Some u ->
  getIdToken u = Resolved t ->
  requests (timeIn (JStr "09:00") (JStr "present")) w
  = [(API_URL w ++ "/attendance/time-in",
      {| method := "POST";
         headers := [("Content-Type", "application/json");
                     ("Authorization", "Bearer " ++ t)];
         body := Some (json_text "{'time_in':'09:00','status':'present'}") |})].
Proof.
  intros Hu Ht. unfold timeIn.
  rewrite (apiCall_requests _ _ _ w u t Hu Ht). reflexivity.
Qed.

Lemma timeIn_example_witness :
  requests (timeIn (JStr "09:00") (JStr "present")) (answering 200 JNull)
  = [("http://localhost:8000/attendance/time-in",
      {| method := "POST";
         headers := [("Content-Type", "application/json");
                     ("Authorization", "Bearer tok")];
         body := Some (json_text "{'time_in':'09:00','status':'present'}") |})].
Proof.
  exact (timeIn_example (answering 200 JNull) {| getIdToken := Resolved "tok" |} "tok"
                        eq_refl eq_refl).
Defined.

(** C9. [getAllAttendance] given the empty string is the very call it is
    with no argument, a GET of /attendance/all: the one request it issues
    has that path, no query string and no body. *)
Theorem getAllAttendance_empty_date :
  getAllAttendance (JStr "") = getAllAttendance JUndefined
  /\ getAllAttendance (JStr "") = apiCall "GET" "/attendance/all" JUndefined
  /\ (forall w u t,
         currentUser w = Some u -> getIdToken u = Resolved t ->
         requests (getAllAttendance (JStr "")) w
         = [(API_URL w ++ "/attendance/all",
             {| method := "GET";
                headers := [("Content-Type", "application/json");
                            ("Authorization", "Bearer " ++ t)];
                body := None |})]).
Proof.
  split; [reflexivity|]. split; [reflexivity|].
  intros w u t Hu Ht.
  change (getAllAttendance (JStr "")) with (apiCall "GET" "/attendance/all" JUndefined).
  rewrite (apiCall_requests _ _ _ w u t Hu Ht). reflexivity.
Qed.

Lemma getAllAttendance_empty_date_witness :
  requests (getAllAttendance (JStr "")) (answering 200 (JArr []))
  = [("http://localhost:8000/attendance/all",
      {| method := "GET";
         headers := [("Content-Type", "application/json");
                     ("Authorization", "Bearer tok")];
         body := None |})].
Proof.
  exact (proj2 (proj2 getAllAttendance_empty_date) (answering 200 (JArr []))
               {| getIdToken := Resolved "tok" |} "tok" eq_refl eq_refl).
Defined.

(** C10. The request [apiCall] issues has a body exactly when the body
    argument is truthy, and the body is then its JSON serialization; an
    omitted argument, [null], 0, the empty string and [false] are all falsy,
    so [generatePayroll], [createUser] and [updateUser] given a falsy payload
    issue requests with no body: whatever request they issue has none, and
    they issue one (always for the first two, and for [updateUser] whenever
    its user id converts to a string). *)
Theorem body_attached_iff_truthy (w : World) (u : User) (t : string) :
  currentUser w = Some u ->
  getIdToken u = Resolved t ->
  (forall m e b, exists url opts,
      requests (apiCall m e b) w = [(url, opts)]
      /\ (body opts <> None <-> truthy b = true)
      /\ (truthy b = true -> body opts = JSON_stringify b)
      /\ (truthy b = false -> body opts = None))
  /\ (truthy JUndefined = false /\ truthy JNull = false /\ truthy (JNum 0) = false
      /\ truthy (JStr "") = false /\ truthy (JBool false) = false /\ truthy JNaN = false)
  /\ (forall uid data op,
         truthy data = false ->
         In op [GeneratePayroll data; CreateUser data; UpdateUser uid data] ->
         (forall call, In call (requests (exec op) w) -> body (snd call) = None)
         /\ (forallb converts (path_arguments op) = true ->
             exists url opts, requests (exec op) w = [(url, opts)] /\ body opts = None)).
Proof.
  intros Hu Ht.
  assert (Hprim : forall m e b, exists url opts,
             requests (apiCall m e b) w = [(url, opts)]
             /\ (body opts <> None <-> truthy b = true)
             /\ (truthy b = true -> body opts = JSON_stringify b)
             /\ (truthy b = false -> body opts = None)).
  { intros m e b. rewrite (apiCall_requests m e b w u t Hu Ht). unfold built.
    do 2 eexists. split; [reflexivity|]. cbn [body].
    destruct (truthy b) eqn:Hb.
    - split; [split; [reflexivity|intros _; apply truthy_serializes; exact Hb]|].
      split; [reflexivity|discriminate].
    - split; [split; [intros H; now elim H|discriminate]|].
      split; [discriminate|reflexivity]. }
  split; [exact Hprim|]. split; [repeat split|].
  intros uid data op Hf Hin.
  assert (Hop : exec op = throw TypeError \/ exists m e, exec op = apiCall m e data).
  { simpl in Hin. destruct Hin as [<-|[<-|[<-|[]]]].
    - right. do 2 eexists. reflexivity.
    - right. do 2 eexists. reflexivity.
    - cbn [exec]. unfold updateUser, to_string. destruct (ToString uid).
      + right. do 2 eexists. reflexivity.
      + left. reflexivity. }
  split.
  - intros call Hcall. destruct Hop as [Hop|(m & e & Hop)]; rewrite Hop in Hcall.
    + destruct Hcall.
    + destruct (Hprim m e data) as (url & opts & Hreq & _ & _ & Hnone).
      rewrite Hreq in Hcall. destruct Hcall as [<-|[]]. exact (Hnone Hf).
  - intros Hc. destruct Hop as [Hop|(m & e & Hop)].
    + destruct (exec_converts op Hc) as (m & e & b & Hop' & _).
      rewrite Hop in Hop'. symmetry in Hop'. elim (apiCall_is_no_throw _ _ _ _ Hop').
    + rewrite Hop. destruct (Hprim m e data) as (url & opts & Hreq & _ & _ & Hnone).
      exists url, opts. auto.
Qed.

Lemma body_attached_iff_truthy_witness :
  exists url opts,
    requests (exec (UpdateUser (JStr "u7") (JNum 0))) (answering 200 JNull) = [(url, opts)]
    /\ body opts = None.
Proof.
  apply (proj2 (proj2 (proj2 (body_attached_iff_truthy (answering 200 JNull)
                                {| getIdToken := Resolved "tok" |} "tok" eq_refl eq_refl))
                      (JStr "u7") (JNum 0) (UpdateUser (JStr "u7") (JNum 0)) eq_refl
                      (or_intror (or_intror (or_introl eq_refl))))).
  reflexivity.
Defined.

(** ** Worked examples *)

Example stringify_sample :
  JSON_stringify (JObj [("a", JNum (-3)); ("b", JUndefined);
                        ("c", JArr [JStr "x"; JUndefined; JBool true])])
  = Some (json_text "{'a':-3,'c':['x',null,true]}").
Proof. reflexivity. Qed.

Example stringify_escapes :
  JSON_stringify (JStr (String (ascii_of_N 10) ("a" ++ dquote ++ "\")))
  = Some (dquote ++ "\na\" ++ dquote ++ "\\" ++ dquote).
Proof. reflexivity. Qed.

Example updateLeaveStatus_sample :
  requests (updateLeaveStatus (JStr "u42") (JNum 7) (JStr "approved")) (answering 200 JNull)
  = [("http://localhost:8000/leave/u42/7/status",
      {| method := "PUT";
         headers := [("Content-Type", "application/json");
                     ("Authorization", "Bearer tok")];
         body := Some (json_text "{'status':'approved'}") |})].
Proof. reflexivity. Qed.

Example validation_errors_sample :
  outcome (createUser (JObj []))
          (answering 422 (JObj [("detail", JArr [JObj [("msg", JStr "field required")]])]))
  = Rejected (Error "[object Object]").
Proof. reflexivity. Qed.

Example null_failure_body_sample :
  outcome getMyProfile (answering 500 JNull) = Rejected TypeError.
Proof. reflexivity. Qed.

Example configured_base_url_sample :
  map fst (requests getAllUsers
             {| currentUser := Some {| getIdToken := Resolved "tok" |};
                VITE_API_URL := Some "https://summit-api-production.up.railway.app";
                network := fun _ => Rejected (PlatformFailure "offline") |})
  = ["https://summit-api-production.up.railway.app/users"].
Proof. reflexivity. Qed.

Example unprintable_values_sample :
  ToString unprintable = None
  /\ ToString (JArr [JNum 1; unprintable]) = None
  /\ ToString (JArr [JNum 1; JNull; JArr [JStr "a"; JBool true]]) = Some "1,,a,true"
  /\ ToString (JObj [("valueOf", JNum 1)]) = Some "[object Object]".
Proof. repeat split; reflexivity. Qed.

Example unprintable_detail_sample :
  outcome getAllUsers (answering 400 (JObj [("detail", unprintable)])) = Rejected TypeError.
Proof. reflexivity. Qed.

Example unprintable_date_sample :
  outcome (getAllAttendance unprintable) (answering 200 (JArr [])) = Thrown TypeError
  /\ requests (getAllAttendance unprintable) (answering 200 (JArr [])) = [].
Proof. split; reflexivity. Qed.

(** * Further properties of the client *)

(** ** Failure paths of [getToken] and [apiCall] *)

(** X1. A failed token refresh: every operation whose path arguments convert
    to strings rejects with the failure of [getIdToken], untouched, and no
    call of [fetch] is made. *)
Theorem token_failure_propagates (op : Operation) (w : World) (u : User) (x : Exception) :
  currentUser w = Some u ->
  getIdToken u = Rejected x ->
  forallb converts (path_arguments op) = true ->
  outcome (exec op) w = Rejected x /\ requests (exec op) w = [].
Proof.
  intros Hu Hx Hc. destruct (exec_converts op Hc) as (m & e & b & Hop & _). rewrite Hop.
  unfold outcome, requests. rewrite (apiCall_token_failure m _ b w [] u x Hu (or_introl Hx)).
  split; reflexivity.
Qed.

Lemma token_failure_propagates_witness :
  outcome (exec (UpdateOTStatus (JStr "u7") (JNum 12) (JStr "approved"))) stale_session
  = Rejected (PlatformFailure "token refresh failed")
  /\ requests (exec (UpdateOTStatus (JStr "u7") (JNum 12) (JStr "approved"))) stale_session
     = [].
Proof.
  apply (token_failure_propagates _ stale_session
           {| getIdToken := Rejected (PlatformFailure "token refresh failed") |});
    reflexivity.
Defined.

(** X2. A failed transport: when [fetch] rejects, the operation rejects with the
    same failure, and the log still holds that one request: nothing is
    retried. *)
Theorem network_failure_propagates
        (op : Operation) (w : World) (call : FetchCall) (x : Exception) :
  requests (exec op) w = [call] ->
  network w call = Rejected x ->
  outcome (exec op) w = Rejected x.
Proof.
  intros Hreq Hnet. destruct (exec_sent_one op w call Hreq) as (m & e & b & Hop & _). rewrite Hop in *.
  rewrite (apiCall_answered m _ b w call Hreq), Hnet. reflexivity.
Qed.

Lemma network_failure_propagates_witness :
  outcome (exec GetMyLeave) offline = Rejected (PlatformFailure "Failed to fetch").
Proof.
  eapply (network_failure_propagates _ offline); reflexivity.
Defined.

(** X3. A body that is not JSON: the failure of [res.json()] is what the operation
    rejects with, whatever the status: on a status in 200-299 nothing is
    resolved, and on any other status the [detail] message is never built. *)
Theorem parse_failure_propagates
        (op : Operation) (w : World) (call : FetchCall) (res : Response) (x : Exception) :
  requests (exec op) w = [call] ->
  network w call = Resolved res ->
  json res = Rejected x ->
  outcome (exec op) w = Rejected x.
Proof.
  intros Hreq Hnet Hjs. destruct (exec_sent_one op w call Hreq) as (m & e & b & Hop & _). rewrite Hop in *.
  rewrite (apiCall_answered m _ b w call Hreq), Hnet. unfold settle. rewrite Hjs. reflexivity.
Qed.

Lemma parse_failure_propagates_witness :
  outcome (exec GetAllReports) (garbled 502) = Rejected (PlatformFailure "Unexpected token").
Proof.
  eapply (parse_failure_propagates _ (garbled 502) _
            {| status := 502; json := Rejected _ |}); reflexivity.
Defined.

(** X4. A failure response whose body is the JSON value [null]: reading its
    [detail] throws, so the operation rejects with a [TypeError] and not with
    an [Error] carrying the fallback message. *)
Theorem null_failure_body_type_error
        (op : Operation) (w : World) (call : FetchCall) (res : Response) :
  requests (exec op) w = [call] ->
  network w call = Resolved res ->
  ~ (200 <= status res <= 299) ->
  json res = Resolved JNull ->
  outcome (exec op) w = Rejected TypeError.
Proof.
  intros Hreq Hnet Hst Hjs. destruct (exec_sent_one op w call Hreq) as (m & e & b & Hop & _).
  rewrite Hop in *.
  rewrite (apiCall_answered m _ b w call Hreq), Hnet. unfold settle.
  rewrite Hjs, (not_ok res Hst). reflexivity.
Qed.

Lemma null_failure_body_type_error_witness :
  outcome (exec (GetEmployeePayroll (JStr "u7"))) (answering 500 JNull) = Rejected TypeError.
Proof.
  eapply (null_failure_body_type_error _ (answering 500 JNull) _
            {| status := 500; json := Resolved JNull |}).
  - reflexivity.
  - reflexivity.
  - simpl. lia.
  - reflexivity.
Defined.

(** ** What is sent, and when *)

(** X5. No operation ever makes more than one call of [fetch], in any world;
    it makes one exactly when somebody is signed in, the token is obtained,
    and the arguments of its path convert to strings. *)
Theorem at_most_one_request (op : Operation) (w : World) :
  (List.length (requests (exec op) w) <= 1)%nat
  /\ (List.length (requests (exec op) w) = 1%nat
      <-> (exists u t, currentUser w = Some u /\ getIdToken u = Resolved t)
          /\ forallb converts (path_arguments op) = true).
Proof.
  destruct (exec_cases op) as [(Hc & m & e & b & Hop & _)|(Hc & Hop)]; rewrite Hop, Hc.
  - unfold requests.
    destruct (currentUser w) as [u|] eqn:Hu.
    + destruct (getIdToken u) as [t|x|x] eqn:Ht.
      * rewrite (apiCall_signed_in m _ b w [] u t Hu Ht). simpl.
        split; [lia|]. split; [intros _; split; [exists u, t; auto|reflexivity]|reflexivity].
      * rewrite (apiCall_token_failure m _ b w [] u x Hu (or_introl Ht)). simpl.
        split; [lia|]. split; [discriminate|].
        intros [(u' & t & Hu' & Ht') _]. congruence.
      * rewrite (apiCall_token_failure m _ b w [] u x Hu (or_intror Ht)). simpl.
        split; [lia|]. split; [discriminate|].
        intros [(u' & t & Hu' & Ht') _]. congruence.
    + rewrite (apiCall_signed_out m _ b w [] Hu). simpl.
      split; [lia|]. split; [discriminate|].
      intros [(u' & t & Hu' & _) _]. discriminate.
  - simpl. split; [lia|]. split; [discriminate|]. intros [_ H]. discriminate.
Qed.

(** X6. Whatever request appears in the log was built after the token of the
    current user was obtained, goes to the base URL, and carries that token:
    no request leaves without credentials. *)
Theorem every_request_is_authenticated (op : Operation) (w : World) (call : FetchCall) :
  In call (requests (exec op) w) ->
  exists u t endpoint,
    currentUser w = Some u /\ getIdToken u = Resolved t
    /\ fst call = API_URL w ++ endpoint
    /\ headers (snd call) = [("Content-Type", "application/json");
                             ("Authorization", "Bearer " ++ t)].
Proof.
  intros Hin. destruct (exec_sent op w call Hin) as (m & e & b & Hop & _).
  rewrite Hop in Hin. unfold requests in Hin.
  destruct (currentUser w) as [u|] eqn:Hu.
  - destruct (getIdToken u) as [t|x|x] eqn:Ht.
    + rewrite (apiCall_signed_in m _ b w [] u t Hu Ht) in Hin. simpl in Hin.
      destruct Hin as [<-|[]]. exists u, t, ("/" ++ e).
      split; [reflexivity|]. split; [exact Ht|]. split; reflexivity.
    + rewrite (apiCall_token_failure m _ b w [] u x Hu (or_introl Ht)) in Hin. destruct Hin.
    + rewrite (apiCall_token_failure m _ b w [] u x Hu (or_intror Ht)) in Hin. destruct Hin.
  - rewrite (apiCall_signed_out m _ b w [] Hu) in Hin. destruct Hin.
Qed.

Lemma every_request_is_authenticated_witness :
  exists u t endpoint,
    currentUser offline = Some u /\ getIdToken u = Resolved t
    /\ fst (built offline "tok" "GET" "/users" JUndefined) = API_URL offline ++ endpoint
    /\ headers (snd (built offline "tok" "GET" "/users" JUndefined))
       = [("Content-Type", "application/json"); ("Authorization", "Bearer " ++ t)].
Proof.
  apply (every_request_is_authenticated GetAllUsers offline). left. reflexivity.
Defined.

Lemma ok_range (res : Response) : ok res = true -> 200 <= status res <= 299.
Proof.
  unfold ok. intros H. apply andb_true_iff in H. destruct H as [Hlo Hhi].
  apply Z.leb_le in Hlo. apply Z.leb_le in Hhi. lia.
Qed.

Lemma rejection_rejects (data : jsvalue) : exists x, rejection data = Rejected x.
Proof.
  unfold rejection, own_property, error_of.
  destruct data as [| | | | | | |ps]; try (eexists; reflexivity).
  destruct (assoc "detail" ps) as [d|]; [|eexists; reflexivity].
  destruct (ToString (or_else d (JStr "API error"))); eexists; reflexivity.
Qed.

(** X7. An operation resolves only on a success: if it resolved with [data], a
    request was sent, the response had a status in 200-299, and [data] is
    what its body parsed to.  A failure status never resolves. *)
Theorem resolves_only_on_success (op : Operation) (w : World) (data : jsvalue) :
  outcome (exec op) w = Resolved data ->
  exists call res,
    requests (exec op) w = [call]
    /\ network w call = Resolved res
    /\ 200 <= status res <= 299
    /\ json res = Resolved data.
Proof.
  intros Hout.
  destruct (exec_cases op) as [(_ & m & e & b & Hop & _)|(_ & Hop)]; rewrite Hop in *;
    [|discriminate Hout].
  unfold outcome, requests in *.
  destruct (currentUser w) as [u|] eqn:Hu.
  - destruct (getIdToken u) as [t|x|x] eqn:Ht.
    + rewrite (apiCall_signed_in m _ b w [] u t Hu Ht) in *. cbn [fst snd app] in *.
      exists (built w t m ("/" ++ e) b).
      destruct (network w (built w t m ("/" ++ e) b)) as [res|x|x] eqn:Hnet;
        [|discriminate Hout|discriminate Hout].
      exists res. unfold settle in Hout.
      destruct (json res) as [d|x|x] eqn:Hjs; [|discriminate Hout|discriminate Hout].
      destruct (ok res) eqn:Hok.
      * repeat split; try reflexivity; try apply (ok_range res Hok). congruence.
      * destruct (rejection_rejects d) as (x & Hx). congruence.
    + rewrite (apiCall_token_failure m _ b w [] u x Hu (or_introl Ht)) in Hout. discriminate.
    + rewrite (apiCall_token_failure m _ b w [] u x Hu (or_intror Ht)) in Hout. discriminate.
  - rewrite (apiCall_signed_out m _ b w [] Hu) in Hout. discriminate.
Qed.

Lemma resolves_only_on_success_witness :
  exists call res,
    requests (exec GetMyProfile) (answering 200 (JObj [("role", JStr "employee")])) = [call]
    /\ network (answering 200 (JObj [("role", JStr "employee")])) call = Resolved res
    /\ 200 <= status res <= 299
    /\ json res = Resolved (JObj [("role", JStr "employee")]).
Proof.
  apply (resolves_only_on_success GetMyProfile (answering 200 _)). reflexivity.
Defined.

(** X8. The error of a failure response keeps nothing but [detail]: two failures,
    of any two operations, with any two failure statuses and any two bodies
    that agree on [detail], reject alike.  The status, the rest of the body
    and the request made are not to be found in the error. *)
Theorem failure_keeps_only_detail
        (op op' : Operation) (w w' : World) (call call' : FetchCall)
        (res res' : Response) (data data' : jsvalue) :
  requests (exec op) w = [call] -> network w call = Resolved res ->
  ~ (200 <= status res <= 299) -> json res = Resolved data ->
  requests (exec op') w' = [call'] -> network w' call' = Resolved res' ->
  ~ (200 <= status res' <= 299) -> json res' = Resolved data' ->
  data <> JNull -> data <> JUndefined -> data' <> JNull -> data' <> JUndefined ->
  own_property data "detail" = own_property data' "detail" ->
  outcome (exec op) w = outcome (exec op') w'.
Proof.
  intros Hreq Hnet Hst Hjs Hreq' Hnet' Hst' Hjs' Hn Hu Hn' Hu' Hd.
  rewrite (exec_failure op w call res data Hreq Hnet Hst Hjs).
  rewrite (exec_failure op' w' call' res' data' Hreq' Hnet' Hst' Hjs').
  rewrite (rejection_of_detail data Hn Hu), (rejection_of_detail data' Hn' Hu'), Hd.
  reflexivity.
Qed.

Lemma failure_keeps_only_detail_witness :
  outcome (exec (GetEmployeePayroll (JStr "u7")))
          (answering 404 (JObj [("detail", JStr "Not found"); ("code", JNum 7)]))
  = outcome (exec (CreateUser (JObj [("email", JStr "a@b.c")])))
            (answering 500 (JObj [("detail", JStr "Not found")])).
Proof.
  eapply (failure_keeps_only_detail _ _ (answering 404 _) (answering 500 _) _ _
            {| status := 404; json := Resolved _ |} {| status := 500; json := Resolved _ |}).
  - reflexivity.
  - reflexivity.
  - simpl. lia.
  - reflexivity.
  - reflexivity.
  - reflexivity.
  - simpl. lia.
  - reflexivity.
  - discriminate.
  - discriminate.
  - discriminate.
  - discriminate.
  - reflexivity.
Defined.

Lemma Z_to_string_not_empty (z : Z) : Z_to_string z <> "".
Proof.
  unfold Z_to_string. destruct z as [|p|p]; simpl; try discriminate.
  pose proof (DecimalPos.Unsigned.to_uint_nonnil p) as Hp.
  destruct (Pos.to_uint p); simpl; congruence.
Qed.

Lemma ToString_truthy_not_empty (d : jsvalue) :
  truthy d = true -> (forall l, d <> JArr l) ->
  (forall ps, d = JObj ps -> assoc "toString" ps = None) ->
  exists s, ToString d = Some s /\ s <> "".
Proof.
  intros Ht Harr Hobj. destruct d as [| |[|]|z| |s|l|ps]; simpl in *; try discriminate.
  - eexists. split; [reflexivity|discriminate].
  - eexists. split; [reflexivity|apply Z_to_string_not_empty].
  - exists s. split; [reflexivity|]. destruct s; discriminate.
  - elim (Harr l). reflexivity.
  - rewrite (Hobj ps eq_refl). eexists. split; [reflexivity|discriminate].
Qed.

(** X9. The fallback does its work: on a failure response with a body other
    than [null], the operation rejects with an [Error] whose message is not
    empty, provided [detail] is neither an array (an empty array is truthy
    and prints as nothing) nor an object with an own [toString] (its
    conversion throws). *)
Theorem failure_message_not_empty
        (op : Operation) (w : World) (call : FetchCall) (res : Response) (data : jsvalue) :
  requests (exec op) w = [call] ->
  network w call = Resolved res ->
  ~ (200 <= status res <= 299) ->
  json res = Resolved data ->
  data <> JNull -> data <> JUndefined ->
  (forall l, own_property data "detail" <> Some (JArr l)) ->
  (forall ps, own_property data "detail" = Some (JObj ps) -> assoc "toString" ps = None) ->
  exists msg, outcome (exec op) w = Rejected (Error msg) /\ msg <> "".
Proof.
  intros Hreq Hnet Hst Hjs Hn Hu Harr Hobj.
  rewrite (exec_failure op w call res data Hreq Hnet Hst Hjs).
  rewrite (rejection_of_detail data Hn Hu).
  destruct (own_property data "detail") as [d|].
  - unfold or_else, error_of. destruct (truthy d) eqn:Ht.
    + destruct (ToString_truthy_not_empty d Ht) as (s & Hs & Hne).
      * intros l ->. elim (Harr l). reflexivity.
      * intros ps ->. apply Hobj. reflexivity.
      * rewrite Hs. exists s. split; [reflexivity|exact Hne].
    + eexists. split; [reflexivity|discriminate].
  - eexists. split; [reflexivity|discriminate].
Qed.

Lemma failure_message_not_empty_witness :
  exists msg,
    outcome (exec GetAllLeave) (answering 401 (JObj [("detail", JNum 0)]))
    = Rejected (Error msg) /\ msg <> "".
Proof.
  eapply (failure_message_not_empty _ (answering 401 _) _
            {| status := 401; json := Resolved _ |}).
  - reflexivity.
  - reflexivity.
  - simpl. lia.
  - reflexivity.
  - discriminate.
  - discriminate.
  - intros l. discriminate.
  - intros ps. discriminate.
Defined.

(** ** Where requests go *)

(** X10. Every request an operation issues goes to the base URL followed by
    a path that starts with a slash.  The base is [VITE_API_URL] when it is
    set and not empty; when it is unset, and also when it is set to the empty
    string, the base is http://localhost:8000. *)
Theorem request_url_base (op : Operation) (w : World) (call : FetchCall) :
  In call (requests (exec op) w) ->
  (forall base, VITE_API_URL w = Some base -> base <> "" ->
     exists rest, fst call = base ++ "/" ++ rest)
  /\ (VITE_API_URL w = None \/ VITE_API_URL w = Some "" ->
      exists rest, fst call = "http://localhost:8000/" ++ rest).
Proof.
  intros Hin. destruct (exec_sent op w call Hin) as (m & rest & b & Hop & _).
  rewrite Hop in Hin.
  assert (Hcall : fst call = API_URL w ++ "/" ++ rest).
  { unfold requests in Hin.
    destruct (currentUser w) as [u|] eqn:Hu.
    - destruct (getIdToken u) as [t|x|x] eqn:Ht.
      + rewrite (apiCall_signed_in m _ b w [] u t Hu Ht) in Hin. simpl in Hin.
        destruct Hin as [<-|[]]. reflexivity.
      + rewrite (apiCall_token_failure m _ b w [] u x Hu (or_introl Ht)) in Hin.
        destruct Hin.
      + rewrite (apiCall_token_failure m _ b w [] u x Hu (or_intror Ht)) in Hin.
        destruct Hin.
    - rewrite (apiCall_signed_out m _ b w [] Hu) in Hin. destruct Hin. }
  rewrite Hcall. unfold API_URL. split.
  - intros base Hb Hne. rewrite Hb. exists rest.
    destruct base; [congruence|reflexivity].
  - intros [Hb|Hb]; rewrite Hb; exists rest; reflexivity.
Qed.

Lemma request_url_base_witness :
  exists rest,
    fst (built {| currentUser := Some {| getIdToken := Resolved "tok" |};
                  VITE_API_URL := Some "";
                  network := fun _ => Rejected (PlatformFailure "offline") |}
               "tok" "PUT" "/users/u7" (JObj [("name", JStr "Ana")]))
    = "http://localhost:8000/" ++ rest.
Proof.
  apply (proj2 (request_url_base (UpdateUser (JStr "u7") (JObj [("name", JStr "Ana")]))
                  {| currentUser := Some {| getIdToken := Resolved "tok" |};
                     VITE_API_URL := Some "";
                     network := fun _ => Rejected (PlatformFailure "offline") |}
                  _ (or_introl eq_refl))).
  right. reflexivity.
Defined.

(** X11. No GET request carries a body, whatever the arguments; a request that has
    a body is a POST or a PUT. *)
Theorem get_requests_have_no_body (op : Operation) (w : World) (call : FetchCall) :
  requests (exec op) w = [call] ->
  (method (snd call) = "GET" -> body (snd call) = None)
  /\ (body (snd call) <> None -> method (snd call) = "POST" \/ method (snd call) = "PUT").
Proof.
  intros Hreq. destruct (exec_sent_one op w call Hreq) as (m & e & b & Hop & Hm & Hget).
  rewrite Hop in Hreq.
  destruct (apiCall_request_inv m _ b w call Hreq) as (u & t & _ & _ & ->).
  unfold built. cbn [snd method body].
  assert (Hnone : m = "GET" -> (if truthy b then JSON_stringify b else None) = None).
  { intros Hg. rewrite (Hget Hg). reflexivity. }
  split; [exact Hnone|].
  intros Hbody. destruct Hm as [Hg|[Hp|Hp]]; auto.
  elim Hbody. exact (Hnone Hg).
Qed.

Lemma get_requests_have_no_body_witness :
  (method (snd (built offline "tok" "GET" "/payroll/u7" JUndefined)) = "GET" ->
   body (snd (built offline "tok" "GET" "/payroll/u7" JUndefined)) = None)
  /\ (body (snd (built offline "tok" "GET" "/payroll/u7" JUndefined)) <> None ->
      method (snd (built offline "tok" "GET" "/payroll/u7" JUndefined)) = "POST"
      \/ method (snd (built offline "tok" "GET" "/payroll/u7" JUndefined)) = "PUT").
Proof.
  apply (get_requests_have_no_body (GetEmployeePayroll (JStr "u7")) offline). reflexivity.
Defined.

(** X12. A wrapper whose body is an object literal, called with path
    arguments that convert to strings, always sends a body, and the body is
    the text of a JSON object, whatever the values of its fields are, omitted
    ones included: nothing is validated on the client. *)
Theorem object_literal_always_sent (op : Operation) (w : World) (u : User) (t : string) :
  currentUser w = Some u ->
  getIdToken u = Resolved t ->
  object_literal_body op = true ->
  forallb converts (path_arguments op) = true ->
  exists url opts inner,
    requests (exec op) w = [(url, opts)]
    /\ body opts = Some ("{" ++ inner ++ "}")
    /\ (method opts = "POST" \/ method opts = "PUT").
Proof.
  intros Hu Ht Hlit Hc.
  destruct (exec_cases op) as [(_ & m & e & b & Hop & Hm & _ & Hobj)|(Hn & _)];
    [|congruence].
  destruct (Hobj Hlit) as (Hnoget & ps & ->).
  rewrite Hop. rewrite (apiCall_requests _ _ _ w u t Hu Ht). unfold built.
  do 3 eexists. split; [reflexivity|]. cbn [body method truthy].
  split; [apply JSON_stringify_JObj|].
  destruct Hm as [Hg|[Hp|Hp]]; auto. contradiction.
Qed.

Lemma object_literal_always_sent_witness :
  exists url opts inner,
    requests (exec (UpdateReportStatus (JStr "u7") (JNum 3) JUndefined)) offline
    = [(url, opts)]
    /\ body opts = Some ("{" ++ inner ++ "}")
    /\ (method opts = "POST" \/ method opts = "PUT").
Proof.
  apply (object_literal_always_sent _ offline {| getIdToken := Resolved "tok" |} "tok");
    reflexivity.
Defined.

(** X13. A status update called without its status, and with identifiers
    that convert to strings, still sends its PUT, and the body is the empty
    object: the omitted field is dropped by the serialization, not sent as
    [null]. *)
Theorem status_omitted_sends_empty_object
        (w : World) (u : User) (t : string) (uid id : jsvalue) (op : Operation) :
  currentUser w = Some u ->
  getIdToken u = Resolved t ->
  In op [UpdateLeaveStatus uid id JUndefined; UpdateOTStatus uid id JUndefined;
         UpdateReportStatus uid id JUndefined; ToggleUserStatus uid JUndefined] ->
  forallb converts (path_arguments op) = true ->
  exists url opts,
    requests (exec op) w = [(url, opts)]
    /\ method opts = "PUT" /\ body opts = Some "{}".
Proof.
  intros Hu Ht Hin Hc. simpl in Hin.
  destruct Hin as [<-|[<-|[<-|[<-|[]]]]];
    cbn [path_arguments forallb] in Hc; unfold converts in Hc;
    cbn [exec];
    unfold updateLeaveStatus, updateOTStatus, updateReportStatus, toggleUserStatus;
    destruct (ToString uid) as [a|] eqn:Ha; try discriminate Hc;
    rewrite (to_string_bind_some uid a _ Ha); cbv beta;
    try (destruct (ToString id) as [c|] eqn:Hid; [|discriminate Hc];
         rewrite (to_string_bind_some id c _ Hid); cbv beta);
    rewrite (apiCall_requests _ _ _ w u t Hu Ht); unfold built;
    do 2 eexists; (split; [reflexivity|]); split; reflexivity.
Qed.

Lemma status_omitted_sends_empty_object_witness :
  exists url opts,
    requests (exec (ToggleUserStatus (JStr "u7") JUndefined)) offline = [(url, opts)]
    /\ method opts = "PUT" /\ body opts = Some "{}".
Proof.
  apply (status_omitted_sends_empty_object offline {| getIdToken := Resolved "tok" |} "tok"
           (JStr "u7") JNull); [reflexivity|reflexivity| |reflexivity].
  right. right. right. left. reflexivity.
Defined.

(** ** Optional arguments *)

(** X14. [getAllAttendance] makes no difference between an omitted date and any
    falsy one: [null], 0, [false], [NaN] and the empty string all give the
    call made with no argument, a GET of /attendance/all. *)
Theorem getAllAttendance_falsy_date (date : jsvalue) :
  truthy date = false ->
  getAllAttendance date = getAllAttendance JUndefined
  /\ getAllAttendance date = apiCall "GET" "/attendance/all" JUndefined.
Proof.
  intros Hf. unfold getAllAttendance.
  rewrite truthy_default_null, Hf. split; reflexivity.
Qed.

Lemma getAllAttendance_falsy_date_witness :
  getAllAttendance (JNum 0) = getAllAttendance JUndefined
  /\ getAllAttendance (JNum 0) = apiCall "GET" "/attendance/all" JUndefined.
Proof.
  apply (getAllAttendance_falsy_date (JNum 0)). reflexivity.
Defined.

(** X15. The default of [extra_hours] replaces an omitted argument only: a value
    that is given is sent as it is, so an explicit [null] goes out as [null]
    and not as 0, while an explicit 0 is the same call as with two
    arguments. *)
Theorem timeOut_explicit_extra_hours
        (w : World) (u : User) (t : string) (time_out total_hours extra_hours : jsvalue) :
  currentUser w = Some u ->
  getIdToken u = Resolved t ->
  extra_hours <> JUndefined ->
  exists opts,
    requests (timeOut time_out total_hours extra_hours) w
    = [(API_URL w ++ "/attendance/time-out", opts)]
    /\ body opts = JSON_stringify (JObj [("time_out", time_out);
                                         ("total_hours", total_hours);
                                         ("extra_hours", extra_hours)])
    /\ (extra_hours = JNull ->
        exists front, body opts = Some (front ++ json_text "'extra_hours':null}"))
    /\ (extra_hours = JNum 0 ->
        timeOut time_out total_hours extra_hours = timeOut time_out total_hours JUndefined).
Proof.
  intros Hu Ht Hdef. unfold timeOut.
  assert (Hsame : default_param extra_hours (JNum 0) = extra_hours)
    by (destruct extra_hours; simpl; congruence).
  rewrite Hsame. rewrite (apiCall_requests _ _ _ w u t Hu Ht). unfold built.
  eexists. split; [reflexivity|]. cbn [body truthy].
  split; [reflexivity|]. split.
  - intros ->. rewrite JSON_stringify_JObj. cbn [flat_map].
    change (JSON_stringify JNull) with (Some "null").
    destruct (JSON_stringify time_out) as [a|], (JSON_stringify total_hours) as [b|];
      cbn [app join].
    + exists ("{" ++ QuoteJSONString "time_out" ++ ":" ++ a ++ ","
                  ++ QuoteJSONString "total_hours" ++ ":" ++ b ++ ",").
      rewrite !string_app_assoc. reflexivity.
    + exists ("{" ++ QuoteJSONString "time_out" ++ ":" ++ a ++ ",").
      rewrite !string_app_assoc. reflexivity.
    + exists ("{" ++ QuoteJSONString "total_hours" ++ ":" ++ b ++ ",").
      rewrite !string_app_assoc. reflexivity.
    + exists "{". reflexivity.
  - intros ->. reflexivity.
Qed.

Lemma timeOut_explicit_extra_hours_witness :
  exists opts,
    requests (timeOut (JStr "17:00") (JNum 8) JNull) offline
    = [("http://localhost:8000/attendance/time-out", opts)]
    /\ body opts
       = Some (json_text "{'time_out':'17:00','total_hours':8,'extra_hours':null}").
Proof.
  destruct (timeOut_explicit_extra_hours offline {| getIdToken := Resolved "tok" |} "tok"
              (JStr "17:00") (JNum 8) JNull eq_refl eq_refl)
    as (opts & Hreq & Hbody & _).
  - discriminate.
  - exists opts. split; [exact Hreq|]. exact Hbody.
Defined.

(** ** Path parameters *)

Lemma string_app_inv_head (p a b : string) : p ++ a = p ++ b -> a = b.
Proof.
  induction p as [|c p IH]; simpl; intros H; [exact H|].
  injection H as Hp. exact (IH Hp).
Qed.

Lemma split_at_first_slash (a a' r r' : string) :
  occurs slash a = false -> occurs slash a' = false ->
  a ++ String slash r = a' ++ String slash r' ->
  a = a' /\ r = r'.
Proof.
  revert a'. induction a as [|c a IH]; intros [|c' a'] Ha Ha' H; simpl in *.
  - injection H as Hr. split; [reflexivity|exact Hr].
  - injection H as Hc _. subst c'.
    apply orb_false_iff in Ha'. destruct Ha' as [Hc _].
    rewrite Ascii.eqb_refl in Hc. discriminate.
  - injection H as Hc _. subst c.
    apply orb_false_iff in Ha. destruct Ha as [Hc _].
    rewrite Ascii.eqb_refl in Hc. discriminate.
  - injection H as Hc Hr. subst c'.
    apply orb_false_iff in Ha. apply orb_false_iff in Ha'.
    destruct (IH a' (proj2 Ha) (proj2 Ha') Hr) as [-> ->]. split; reflexivity.
Qed.

Lemma two_ids_inj (a b a' b' : string) :
  occurs slash a = false -> occurs slash b = false ->
  occurs slash a' = false -> occurs slash b' = false ->
  a ++ "/" ++ b ++ "/status" = a' ++ "/" ++ b' ++ "/status" ->
  a = a' /\ b = b'.
Proof.
  intros Ha Hb Ha' Hb' H.
  destruct (split_at_first_slash a a' _ _ Ha Ha' H) as [-> H2].
  destruct (split_at_first_slash b b' _ _ Hb Hb' H2) as [-> _].
  split; reflexivity.
Qed.

(** X17. Path parameters are put into the path as they are, with no encoding.
    Identifiers free of slashes can be read back from the URL: two status
    updates of the same kind that go to the same URL were given the same
    user and the same record. *)
Theorem status_path_determines_ids
        (w : World) (u : User) (t : string)
        (uid id uid' id' : string) (status status' : jsvalue) :
  currentUser w = Some u ->
  getIdToken u = Resolved t ->
  occurs slash uid = false -> occurs slash id = false ->
  occurs slash uid' = false -> occurs slash id' = false ->
  (map fst (requests (updateLeaveStatus (JStr uid) (JStr id) status) w)
   = map fst (requests (updateLeaveStatus (JStr uid') (JStr id') status') w)
   -> uid = uid' /\ id = id')
  /\ (map fst (requests (updateOTStatus (JStr uid) (JStr id) status) w)
      = map fst (requests (updateOTStatus (JStr uid') (JStr id') status') w)
      -> uid = uid' /\ id = id')
  /\ (map fst (requests (updateReportStatus (JStr uid) (JStr id) status) w)
      = map fst (requests (updateReportStatus (JStr uid') (JStr id') status') w)
      -> uid = uid' /\ id = id').
Proof.
  intros Hu Ht Ha Hb Ha' Hb'.
  change (updateLeaveStatus (JStr uid) (JStr id) status)
    with (apiCall "PUT" ("/leave/" ++ uid ++ "/" ++ id ++ "/status")
                  (JObj [("status", status)])).
  change (updateLeaveStatus (JStr uid') (JStr id') status')
    with (apiCall "PUT" ("/leave/" ++ uid' ++ "/" ++ id' ++ "/status")
                  (JObj [("status", status')])).
  change (updateOTStatus (JStr uid) (JStr id) status)
    with (apiCall "PUT" ("/overtime/" ++ uid ++ "/" ++ id ++ "/status")
                  (JObj [("status", status)])).
  change (updateOTStatus (JStr uid') (JStr id') status')
    with (apiCall "PUT" ("/overtime/" ++ uid' ++ "/" ++ id' ++ "/status")
                  (JObj [("status", status')])).
  change (updateReportStatus (JStr uid) (JStr id) status)
    with (apiCall "PUT" ("/reports/" ++ uid ++ "/" ++ id ++ "/status")
                  (JObj [("status", status)])).
  change (updateReportStatus (JStr uid') (JStr id') status')
    with (apiCall "PUT" ("/reports/" ++ uid' ++ "/" ++ id' ++ "/status")
                  (JObj [("status", status')])).
  rewrite !(apiCall_requests _ _ _ w u t Hu Ht). unfold built. cbn [map fst].
  split; [|split]; intros H; injection H as Hurl; apply string_app_inv_head in Hurl.
  - apply (string_app_inv_head "/leave/") in Hurl.
    apply (two_ids_inj uid id uid' id' Ha Hb Ha' Hb' Hurl).
  - apply (string_app_inv_head "/overtime/") in Hurl.
    apply (two_ids_inj uid id uid' id' Ha Hb Ha' Hb' Hurl).
  - apply (string_app_inv_head "/reports/") in Hurl.
    apply (two_ids_inj uid id uid' id' Ha Hb Ha' Hb' Hurl).
Qed.

Lemma status_path_determines_ids_witness :
  "u7" = "u7" /\ "l3" = "l3".
Proof.
  apply (proj1 (status_path_determines_ids offline {| getIdToken := Resolved "tok" |} "tok"
                  "u7" "l3" "u7" "l3" (JStr "approved") (JStr "rejected")
                  eq_refl eq_refl eq_refl eq_refl eq_refl eq_refl)).
  reflexivity.
Defined.

(** X18. With a slash in an identifier the path no longer tells the call: for
    every user id, [updateUser] on that id followed by /status makes its PUT
    to the very URL of [toggleUserStatus] on the id; and the payroll of the
    user named me is the call [getMyPayroll]. *)
Theorem path_parameters_not_encoded
        (w : World) (u : User) (t : string) (uid : string) (data status : jsvalue) :
  currentUser w = Some u ->
  getIdToken u = Resolved t ->
  (exists url o1 o2,
      requests (updateUser (JStr (uid ++ "/status")) data) w = [(url, o1)]
      /\ requests (toggleUserStatus (JStr uid) status) w = [(url, o2)]
      /\ method o1 = method o2)
  /\ getEmployeePayroll (JStr "me") = getMyPayroll.
Proof.
  intros Hu Ht. split; [|reflexivity].
  change (updateUser (JStr (uid ++ "/status")) data)
    with (apiCall "PUT" ("/users/" ++ uid ++ "/status") data).
  change (toggleUserStatus (JStr uid) status)
    with (apiCall "PUT" ("/users/" ++ uid ++ "/status") (JObj [("status", status)])).
  rewrite !(apiCall_requests _ _ _ w u t Hu Ht). unfold built.
  do 3 eexists. repeat split; reflexivity.
Qed.

Lemma path_parameters_not_encoded_witness :
  (exists url o1 o2,
      requests (updateUser (JStr ("u7" ++ "/status")) (JObj [("name", JStr "Ana")])) offline
      = [(url, o1)]
      /\ requests (toggleUserStatus (JStr "u7") (JStr "inactive")) offline = [(url, o2)]
      /\ method o1 = method o2)
  /\ getEmployeePayroll (JStr "me") = getMyPayroll.
Proof.
  apply (path_parameters_not_encoded offline {| getIdToken := Resolved "tok" |} "tok");
    reflexivity.
Defined.

(** ** More worked examples *)

Example empty_array_detail_sample :
  outcome getAllUsers (answering 400 (JObj [("detail", JArr [])])) = Rejected (Error "").
Proof. reflexivity. Qed.

Example slash_in_id_sample :
  map fst (requests (updateLeaveStatus (JStr "a/b") (JStr "c") JNull) offline)
  = map fst (requests (updateLeaveStatus (JStr "a") (JStr "b/c") JNull) offline).
Proof. reflexivity. Qed.

Example timeIn_without_arguments_sample :
  map (fun call => body (snd call)) (requests (timeIn JUndefined JUndefined) offline)
  = [Some "{}"].
Proof. reflexivity. Qed.

Example unprintable_id_sends_nothing_sample :
  outcome (updateUser unprintable JNull) offline = Thrown TypeError
  /\ requests (updateUser unprintable JNull) offline = [].
Proof. split; reflexivity. Qed.
